(** * telegnotion_bot.py: a shallow embedding of the Telegram-to-Notion bridge

    Python [str] values are sequences of code points; they are modelled as
    [list nat].  Source literals are written as Rocq strings and decoded
    from UTF-8 by [lit], so that accented French literals carry their real
    code points.  Python dicts built by the code are modelled as JSON-like
    values whose objects are association lists in insertion order. *)

From Stdlib Require Import List String Ascii Arith Lia Bool Sorted.
Import ListNotations.
Open Scope list_scope.
Local Set Warnings "-register-all".

(** ** Python strings *)

Definition str := list nat.

(** UTF-8 decoding of a source literal (1-, 2- and 3-byte sequences). *)
Fixpoint utf8_decode (s : string) : str :=
  match s with
  | EmptyString => []
  | String a rest =>
      let b := nat_of_ascii a in
      if b <? 128 then b :: utf8_decode rest
      else if b <? 224 then
        match rest with
        | String a2 rest2 =>
            ((b - 192) * 64 + (nat_of_ascii a2 - 128)) :: utf8_decode rest2
        | EmptyString => [b]
        end
      else
        match rest with
        | String a2 (String a3 rest3) =>
            ((b - 224) * 4096 + (nat_of_ascii a2 - 128) * 64
               + (nat_of_ascii a3 - 128)) :: utf8_decode rest3
        | _ => [b]
        end
  end.

Definition lit (s : string) : str := utf8_decode s.

(** [s[:n]] *)
Definition slice_to (n : nat) (s : str) : str := firstn n s.

(** Truthiness of a Python [str]: the empty string is falsy. *)
Definition str_truthy (s : str) : bool :=
  match s with [] => false | _ => true end.

(** [a or b] on optional strings ([None] and [""] are falsy). *)
Definition str_or (a : option str) (b : str) : str :=
  match a with
  | Some s => if str_truthy s then s else b
  | None => b
  end.

(** [str.capitalize]: first character upper-cased, the rest lower-cased.
    Case mapping is modelled on the ASCII range. *)
Definition upper_cp (c : nat) : nat :=
  if (97 <=? c) && (c <=? 122) then c - 32 else c.
Definition lower_cp (c : nat) : nat :=
  if (65 <=? c) && (c <=? 90) then c + 32 else c.

Definition capitalize (s : str) : str :=
  match s with
  | [] => []
  | c :: rest => upper_cp c :: map lower_cp rest
  end.

(** Decimal rendering.  [pad_digits w n] is the [w] low decimal digits of
    [n]; [ndigits n] is the number of decimal digits of [n]. *)
Fixpoint pad_digits (w n : nat) : str :=
  match w with
  | 0 => []
  | S w' => pad_digits w' (n / 10) ++ [48 + n mod 10]
  end.

Fixpoint ndigits_fuel (fuel n : nat) : nat :=
  match fuel with
  | 0 => 1
  | S f => if n <? 10 then 1 else S (ndigits_fuel f (n / 10))
  end.

Definition ndigits (n : nat) : nat := ndigits_fuel n n.

(** [str(n)] *)
Definition dec (n : nat) : str := pad_digits (ndigits n) n.

(** [%0wd]: zero padding to width [w], never truncating. *)
Definition zpad (w n : nat) : str := pad_digits (Nat.max w (ndigits n)) n.

(** ** JSON-like values for the dicts handed to the Notion client *)

Inductive json : Type :=
| JStr (s : str)
| JArr (items : list json)
| JObj (fields : list (string * json)).

Inductive step : Type := Key (k : string) | Idx (i : nat).

Fixpoint assoc (k : string) (l : list (string * json)) : option json :=
  match l with
  | [] => None
  | (k', v) :: rest => if String.eqb k k' then Some v else assoc k rest
  end.

(** [d[k1][k2]...], [None] where Python would raise. *)
Fixpoint jget (path : list step) (j : json) : option json :=
  match path with
  | [] => Some j
  | Key k :: rest =>
      match j with
      | JObj fs => match assoc k fs with Some v => jget rest v | None => None end
      | _ => None
      end
  | Idx i :: rest =>
      match j with
      | JArr l => match nth_error l i with Some v => jget rest v | None => None end
      | _ => None
      end
  end.

(** The keys of a dict, in insertion order. *)
Definition keys (j : json) : list string :=
  match j with JObj fs => map fst fs | _ => [] end.

(** ** get_text_properties *)

Definition get_text_properties (text : str) : json :=
  let title := slice_to 30 text in
  JObj [ ("Name", JObj [("title", JArr [JObj [("text", JObj [("content", JStr title)])]])]);
         ("Type", JObj [("select", JObj [("name", JStr (lit "Texte"))])]);
         ("Contenu", JObj [("rich_text",
                             JArr [JObj [("type", JStr (lit "text"));
                                         ("text", JObj [("content", JStr text)])]])]) ]%string.

(** Access paths into a Notion properties dict. *)
Definition name_path : list step :=
  [Key "Name"; Key "title"; Idx 0; Key "text"; Key "content"]%string.
Definition type_path : list step := [Key "Type"; Key "select"; Key "name"]%string.
Definition contenu_path : list step :=
  [Key "Contenu"; Key "rich_text"; Idx 0; Key "text"; Key "content"]%string.
Definition url_path : list step := [Key "Fichier URL"; Key "url"]%string.

(** ** datetime and strftime('%Y-%m-%d_%H-%M-%S') *)

Record datetime := mkDatetime {
  year : nat; month : nat; day : nat; hour : nat; minute : nat; second : nat }.

(** The range invariants of a Python [datetime] value
    (MINYEAR = 1, MAXYEAR = 9999). *)
Definition valid_datetime (d : datetime) : bool :=
  (1 <=? year d) && (year d <? 10 ^ 4) && (1 <=? month d) && (month d <=? 12)
  && (1 <=? day d) && (day d <=? 31) && (hour d <=? 23) && (minute d <=? 59)
  && (second d <=? 59).

(** [%Y] is the four-digit zero-padded year, the others two digits. *)
Definition strftime_ts (d : datetime) : str :=
  zpad 4 (year d) ++ lit "-" ++ zpad 2 (month d) ++ lit "-" ++ zpad 2 (day d)
  ++ lit "_" ++ zpad 2 (hour d) ++ lit "-" ++ zpad 2 (minute d) ++ lit "-"
  ++ zpad 2 (second d).

(** ** Exceptions, external effects and the trace they leave *)

Inductive exn : Type :=
| APIResponseError (code : str) (body : str)
| ValueError (msg : str)
| IndexError
| OtherException (msg : str).

Definition exn_text (e : exn) : str :=
  match e with
  | APIResponseError c b => c ++ lit " - " ++ b
  | ValueError m | OtherException m => m
  | IndexError => lit "list index out of range"
  end.

(** [telegram.File]: only [file_path] is read by the code. *)
Record TelegramFile := mkTelegramFile { file_path : str }.

Inductive level := INFO | ERROR.

(** Every outbound interaction, with what the outside world answered:
    [None] for a normal return, [Some e] when the call raised [e]. *)
Inductive event : Type :=
| EvLog (lvl : level) (msg : str)
| EvReply (text : str) (res : option exn)
| EvGetFile (file_id : str) (res : exn + TelegramFile)
| EvCreate (database_id : str) (properties : json) (res : option exn)
| EvNow (d : datetime).

Definition trace := list event.

(** The outside world: chat replies, [bot.get_file], [notion.pages.create]
    and the clock, each free to depend on everything that happened before. *)
Record env := mkEnv {
  env_reply : trace -> str -> option exn;
  env_get_file : trace -> str -> exn + TelegramFile;
  env_create : trace -> str -> json -> option exn;
  env_now : trace -> datetime }.

(** The state/exception monad the async Python code runs in. *)
Definition M (A : Type) : Type := trace -> (exn + A) * trace.

Definition ret {A} (a : A) : M A := fun tr => (inr a, tr).
Definition raise {A} (e : exn) : M A := fun tr => (inl e, tr).
Definition bind {A B} (m : M A) (f : A -> M B) : M B :=
  fun tr => match m tr with
            | (inl e, tr') => (inl e, tr')
            | (inr a, tr') => f a tr'
            end.
(** [try: m except: h] *)
Definition catch {A} (m : M A) (h : exn -> M A) : M A :=
  fun tr => match m tr with
            | (inl e, tr') => h e tr'
            | ok => ok
            end.

Notation "x <- m ;; k" := (bind m (fun x => k)) (at level 61, m at next level, right associativity).
Notation "m ;;; k" := (bind m (fun _ => k)) (at level 61, right associativity).

Section Program.
Variable E : env.

Definition emit (ev : event) : M unit := fun tr => (inr tt, tr ++ [ev]).

Definition log (l : level) (msg : str) : M unit := emit (EvLog l msg).

Definition reply_text (text : str) : M unit :=
  fun tr => let r := env_reply E tr text in
            (match r with Some e => inl e | None => inr tt end,
             tr ++ [EvReply text r]).

Definition get_file (file_id : str) : M TelegramFile :=
  fun tr => let r := env_get_file E tr file_id in (r, tr ++ [EvGetFile file_id r]).

Definition pages_create (database_id : str) (properties : json) : M unit :=
  fun tr => let r := env_create E tr database_id properties in
            (match r with Some e => inl e | None => inr tt end,
             tr ++ [EvCreate database_id properties r]).

Definition now : M datetime :=
  fun tr => let d := env_now E tr in (inr d, tr ++ [EvNow d]).

(** NOTION_DB_ID, read once at start-up. *)
Variable NOTION_DB_ID : str.

(** save_to_notion *)
Definition save_to_notion (page_properties : json) : M bool :=
  catch
    (pages_create NOTION_DB_ID page_properties ;;;
     log INFO (lit "Page créée avec succès dans Notion.") ;;;
     ret true)
    (fun e => match e with
              | APIResponseError code body =>
                  log ERROR (lit "Erreur API Notion: " ++ code ++ lit " - " ++ body) ;;;
                  ret false
              | _ =>
                  log ERROR (lit "Erreur inattendue lors de la sauvegarde dans Notion: "
                             ++ exn_text e) ;;;
                  ret false
              end).

(** get_file_properties.  [filename or now().strftime(...)] evaluates the
    clock only when [filename] is falsy. *)
Definition get_file_properties (file : TelegramFile) (file_type : str)
    (filename : option str) : M json :=
  let file_url := file_path file in
  suffix <- (match filename with
             | Some f => if str_truthy f then ret f else d <- now ;; ret (strftime_ts d)
             | None => d <- now ;; ret (strftime_ts d)
             end) ;;
  let page_title := capitalize file_type ++ lit ": " ++ suffix in
  ret (JObj [ ("Name", JObj [("title", JArr [JObj [("text", JObj [("content",
                                JStr (slice_to 100 page_title))])]])]);
              ("Type", JObj [("select", JObj [("name", JStr (capitalize file_type))])]);
              ("Fichier URL", JObj [("url", JStr file_url)]) ]%string).

End Program.

(** ** Telegram updates and the message handlers *)

Record User := mkUser { first_name : str; user_id : nat }.
Record PhotoSize := mkPhotoSize { ps_file_id : str; width : nat; height : nat }.
Record Document := mkDocument { doc_file_id : str; doc_file_name : option str }.

(** [telegram.Message], with the fields the handlers read. *)
Record Message := mkMessage {
  msg_text : option str;
  msg_photo : list PhotoSize;
  msg_document : option Document }.

(** [telegram.Update]: Telegram sets one of its message fields (a new
    message, an edited message, a channel post, an edited channel post);
    [effective_user] is the sender the library reports for it, [None] for
    instance for channel posts. *)
Record Update := mkUpdate {
  message : option Message;
  edited_message : option Message;
  channel_post : option Message;
  edited_channel_post : option Message;
  effective_user : option User }.


(** The [AttributeError] raised by [x.name] when [x] is [None]. *)
Definition attribute_error (name : string) : exn :=
  OtherException (lit "'NoneType' object has no attribute '" ++ lit name ++ lit "'").

(** [x.name], where [x] may be [None]. *)
Definition getattr {A} (name : string) (x : option A) : M A :=
  match x with Some a => ret a | None => raise (attribute_error name) end.

(** The operand of a slice [x[:n]], where [x] may be [None]. *)
Definition sliceable (x : option str) : M str :=
  match x with
  | Some s => ret s
  | None => raise (OtherException (lit "'NoneType' object is not subscriptable"))
  end.

(** [f"{x}"] for an optional string: [None] renders as ["None"]. *)
Definition fmt_opt (o : option str) : str :=
  match o with Some s => s | None => lit "None" end.

(** [l[-1]] *)
Definition last_item {A} (l : list A) : M A :=
  match rev l with x :: _ => ret x | [] => raise IndexError end.

Definition failure_text : str :=
  lit "Oups ! Une erreur s'est produite lors de la sauvegarde dans Notion.".

Section Handlers.
Variable E : env.
Variable NOTION_DB_ID : str.

(** start.  [update.message.reply_text(...)] *)
Definition start (update : Update) : M unit :=
  msg <- getattr "reply_text" (message update) ;;
  reply_text E (lit "Bonjour ! Envoyez-moi du texte, une image ou un document, et je le sauvegarderai dans votre base de données Notion.").

(** handle_text.  [message_text = update.message.text]; the log line's
    f-string evaluates [user.first_name], [user.id] and [message_text[:50]]
    in this order before anything is logged; [update.message] is known to
    be present for the replies. *)
Definition handle_text (update : Update) : M unit :=
  msg <- getattr "text" (message update) ;;
  let message_text := msg_text msg in
  user <- getattr "first_name" (effective_user update) ;;
  message_text <- sliceable message_text ;;
  log INFO (lit "Message texte reçu de " ++ first_name user ++ lit " ("
            ++ dec (user_id user) ++ lit "): " ++ slice_to 50 message_text ++ lit "...") ;;;
  reply_text E (lit "Traitement du texte...") ;;;
  let properties := get_text_properties message_text in
  success <- save_to_notion E NOTION_DB_ID properties ;;
  if success then reply_text E (lit "Texte sauvegardé dans Notion !")
  else reply_text E failure_text.

(** handle_photo.  The log line reads [user.first_name]; the
    acknowledgment then reads [update.message]. *)
Definition handle_photo (update : Update) : M unit :=
  user <- getattr "first_name" (effective_user update) ;;
  log INFO (lit "Photo reçue de " ++ first_name user ++ lit " ("
            ++ dec (user_id user) ++ lit ")") ;;;
  msg <- getattr "reply_text" (message update) ;;
  reply_text E (lit "Traitement de l'image...") ;;;
  largest <- last_item (msg_photo msg) ;;
  photo_file <- get_file E (ps_file_id largest) ;;
  properties <- get_file_properties E photo_file (lit "Image") None ;;
  success <- save_to_notion E NOTION_DB_ID properties ;;
  if success then reply_text E (lit "Image sauvegardée dans Notion !")
  else reply_text E failure_text.

(** handle_document.  [doc = update.message.document]; the log line reads
    [user.first_name], [user.id] and [doc.file_name] in this order. *)
Definition handle_document (update : Update) : M unit :=
  msg <- getattr "document" (message update) ;;
  let doc := msg_document msg in
  user <- getattr "first_name" (effective_user update) ;;
  doc <- getattr "file_name" doc ;;
  log INFO (lit "Document reçu de " ++ first_name user ++ lit " ("
            ++ dec (user_id user) ++ lit "): " ++ fmt_opt (doc_file_name doc)) ;;;
  reply_text E (lit "Traitement du document...") ;;;
  doc_file <- get_file E (doc_file_id doc) ;;
  properties <- get_file_properties E doc_file (lit "Document") (doc_file_name doc) ;;
  success <- save_to_notion E NOTION_DB_ID properties ;;
  if success then
    reply_text E (lit "Document '" ++ fmt_opt (doc_file_name doc)
                  ++ lit "' sauvegardé dans Notion !")
  else reply_text E failure_text.

(** error_handler: called by the application with the exception a handler
    raised.  [has_message] is [isinstance(update, Update) and
    update.effective_message]; a failure of its own reply is logged and
    swallowed. *)
Definition error_handler (has_message : bool) (error : exn) : M unit :=
  log ERROR (lit "Exception lors du traitement d'une mise à jour: " ++ exn_text error) ;;;
  if has_message then
    catch (reply_text E (lit "Désolé, une erreur interne est survenue."))
          (fun e => log ERROR (lit "Impossible d'envoyer un message d'erreur à l'utilisateur: "
                               ++ exn_text e))
  else ret tt.

(** How the application built in [main()] runs a handler on an update:
    an exception the handler raises is passed to the error handler
    registered with [add_error_handler]. *)
Definition process_update (has_message : bool) (handler : M unit) : M unit :=
  catch handler (error_handler has_message).

End Handlers.


(** The events a handler appended to the trace it started from. *)
Definition new_events (tr0 tr1 : trace) : trace := skipn (List.length tr0) tr1.

Definition is_reply (ev : event) : bool :=
  match ev with EvReply _ _ => true | _ => false end.
Definition is_create (ev : event) : bool :=
  match ev with EvCreate _ _ _ => true | _ => false end.
Definition is_get_file (ev : event) : bool :=
  match ev with EvGetFile _ _ => true | _ => false end.

(** ** Module-level start-up *)

(** The process environment after [load_dotenv()], and the outcome of
    [Client(auth=NOTION_TOKEN)]. *)
Record config := mkConfig {
  getenv : string -> option str;
  client_init : option exn }.

Inductive startup_result :=
| StartupRaised (e : exn)   (* uncaught exception at import time *)
| StartupExited             (* exit() after a failed client init *)
| Polling.                  (* main() reached run_polling() *)

(** [bool(x)] for the value of [os.getenv]. *)
Definition opt_truthy (o : option str) : bool :=
  match o with Some s => str_truthy s | None => false end.

(** [if not all([TELEGRAM_TOKEN, NOTION_TOKEN, NOTION_DB_ID]): raise ValueError(...)] *)
Definition config_check (c : config) : exn + unit :=
  let TELEGRAM_TOKEN := getenv c "TELEGRAM_BOT_TOKEN" in
  let NOTION_TOKEN := getenv c "NOTION_API_KEY" in
  let NOTION_DB_ID := getenv c "NOTION_DATABASE_ID" in
  if forallb opt_truthy [TELEGRAM_TOKEN; NOTION_TOKEN; NOTION_DB_ID] then inr tt
  else inl (ValueError (lit "Erreur: Assurez-vous que TELEGRAM_BOT_TOKEN, NOTION_API_KEY, et NOTION_DATABASE_ID sont définis dans le fichier .env")).

Definition startup (c : config) : startup_result :=
  match config_check c with
  | inl e => StartupRaised e
  | inr _ =>
      match client_init c with
      | Some _ => StartupExited
      | None => Polling
      end
  end.

(** ** Concrete runs *)

Definition clock0 : datetime := mkDatetime 2026 10 18 9 5 7.

Definition env_all_ok : env :=
  mkEnv (fun _ _ => None)
        (fun _ _ => inr (mkTelegramFile (lit "https://example/x")))
        (fun _ _ _ => None)
        (fun _ => clock0).

Example text_hello :
  get_text_properties (lit "Hello world") =
  JObj [ ("Name", JObj [("title", JArr [JObj [("text", JObj [("content", JStr (lit "Hello world"))])]])]);
         ("Type", JObj [("select", JObj [("name", JStr (lit "Texte"))])]);
         ("Contenu", JObj [("rich_text",
                             JArr [JObj [("type", JStr (lit "text"));
                                         ("text", JObj [("content", JStr (lit "Hello world"))])]])]) ]%string.
Proof. reflexivity. Qed.

Example document_report :
  fst (get_file_properties env_all_ok (mkTelegramFile (lit "https://example/x"))
         (lit "Document") (Some (lit "report.pdf")) []) =
  inr (JObj [ ("Name", JObj [("title", JArr [JObj [("text", JObj [("content",
                                 JStr (lit "Document: report.pdf"))])]])]);
              ("Type", JObj [("select", JObj [("name", JStr (lit "Document"))])]);
              ("Fichier URL", JObj [("url", JStr (lit "https://example/x"))]) ]%string).
Proof. reflexivity. Qed.

Example image_timestamp :
  option_map (jget name_path)
    (match fst (get_file_properties env_all_ok (mkTelegramFile (lit "u")) (lit "Image") None [])
     with inr p => Some p | inl _ => None end)
  = Some (Some (JStr (lit "Image: 2026-10-18_09-05-07"))).
Proof. vm_compute. reflexivity. Qed.

Example accented_literal : lit "é" = [233].
Proof. reflexivity. Qed.

(** ** Claims *)

(** C1: for every string [s], the text payload's Name title content is
    [s[:30]], its Contenu rich-text content is [s] unchanged and its Type
    select is "Texte"; [get_text_properties] is total (no error case). *)
Theorem get_text_properties_fields (s : str) :
  jget name_path (get_text_properties s) = Some (JStr (slice_to 30 s)) /\
  jget contenu_path (get_text_properties s) = Some (JStr s) /\
  jget type_path (get_text_properties s) = Some (JStr (lit "Texte")).
Proof. repeat split; reflexivity. Qed.

(** C2: [save_to_notion] never raises, makes exactly one
    [notion.pages.create] call (no retry), and returns [True] exactly when
    that call returned normally, [False] when it raised an
    [APIResponseError] or any other exception. *)
Theorem save_to_notion_outcome (E : env) (db : str) (props : json) (tr : trace) :
  exists lvl msg,
    save_to_notion E db props tr =
    (inr (match env_create E tr db props with None => true | Some _ => false end),
     tr ++ [EvCreate db props (env_create E tr db props); EvLog lvl msg]).
Proof.
  unfold save_to_notion, catch, bind, pages_create, log, emit, ret.
  destruct (env_create E tr db props) as [[c b| m | | m]|];
    eexists; eexists; rewrite <- app_assoc; reflexivity.
Qed.

Lemma new_events_app (tr0 l : trace) : new_events tr0 (tr0 ++ l) = l.
Proof. unfold new_events. rewrite skipn_app, skipn_all, Nat.sub_diag. reflexivity. Qed.

Lemma new_events_refl (tr0 : trace) : new_events tr0 tr0 = [].
Proof. unfold new_events. apply skipn_all. Qed.

Lemma strftime_ts_nonempty (d : datetime) : strftime_ts d <> [].
Proof.
  unfold strftime_ts. intro H. apply app_eq_nil in H as [_ H].
  apply app_eq_nil in H as [H _]. discriminate.
Qed.

(** Unfold the monad and split on every answer of the outside world. *)
Ltac run_program :=
  repeat (cbn -[get_text_properties strftime_ts capitalize lit slice_to dec failure_text attribute_error];
          first
          [ lazymatch goal with |- context [env_reply ?E ?t ?m] =>
              destruct (env_reply E t m) eqn:? end
          | lazymatch goal with |- context [env_get_file ?E ?t ?i] =>
              destruct (env_get_file E t i) eqn:? end
          | lazymatch goal with |- context [env_create ?E ?t ?d ?p] =>
              destruct (env_create E t d p) as [[]|] eqn:? end ]).

Ltac norm_trace :=
  cbn [fst snd]; repeat rewrite <- app_assoc; rewrite ?new_events_app, ?new_events_refl;
  cbn [app filter is_reply is_create is_get_file List.length].

(** C3: for every kind, download URL and optional filename,
    [get_file_properties] returns (never raises) a payload whose Type select
    is [file_type.capitalize()], whose Fichier URL is [file.file_path]
    unchanged, and whose Name title is
    [f"{Kind}: {filename or timestamp}"[:100]], hence at most 100 characters;
    the timestamp is the clock read at the call. *)
Theorem get_file_properties_fields (E : env) (file : TelegramFile) (file_type : str)
    (filename : option str) (tr : trace) :
  exists p tr' title,
    get_file_properties E file file_type filename tr = (inr p, tr') /\
    jget type_path p = Some (JStr (capitalize file_type)) /\
    jget url_path p = Some (JStr (file_path file)) /\
    jget name_path p = Some (JStr title) /\
    title = slice_to 100 (capitalize file_type ++ lit ": "
                          ++ str_or filename (strftime_ts (env_now E tr))) /\
    List.length title <= 100.
Proof.
  destruct filename as [[|c f]|]; cbn -[capitalize lit slice_to strftime_ts];
    do 3 eexists; (split; [reflexivity|]); repeat split;
    unfold slice_to; apply firstn_le_length.
Qed.

(** C4: a text payload has exactly the keys Name, Type, Contenu; a file
    payload (which [get_file_properties] always returns) exactly the keys
    Name, Type, Fichier URL.  No payload has both Contenu and Fichier URL. *)
Theorem payload_keys (s : str) (E : env) (file : TelegramFile) (file_type : str)
    (filename : option str) (tr : trace) :
  keys (get_text_properties s) = ["Name"; "Type"; "Contenu"]%string /\
  match fst (get_file_properties E file file_type filename tr) with
  | inr p => keys p = ["Name"; "Type"; "Fichier URL"]%string
  | inl _ => False
  end.
Proof.
  split; [reflexivity|].
  destruct filename as [[|c f]|]; reflexivity.
Qed.

Definition with_clock (E : env) (clk : trace -> datetime) : env :=
  mkEnv (env_reply E) (env_get_file E) (env_create E) clk.

(** The reply protocol of one handled event: one acknowledgment, then one
    outcome reply chosen by what the single record-creation call answered. *)
Definition reply_protocol (ack ok_text : str) (new : trace) : Prop :=
  exists db p o,
    filter is_create new = [EvCreate db p o] /\
    filter is_reply new =
      [EvReply ack None;
       EvReply (match o with None => ok_text | Some _ => failure_text end) None].

Definition at_most_one_create (run : M unit) (tr : trace) : Prop :=
  List.length (filter is_create (new_events tr (snd (run tr)))) <= 1.

Definition replies_succeed (E : env) : Prop := forall t m, env_reply E t m = None.
Definition get_file_succeeds (E : env) : Prop :=
  forall t i, exists f, env_get_file E t i = inr f.

Definition ack_text : str := lit "Traitement du texte...".
Definition ack_image : str := lit "Traitement de l'image...".
Definition ack_document : str := lit "Traitement du document...".
Definition document_ok_text (doc : Document) : str :=
  lit "Document '" ++ fmt_opt (doc_file_name doc) ++ lit "' sauvegardé dans Notion !".

Ltac close_env_cases :=
  match goal with
  | Hr : replies_succeed ?E, Heq : env_reply ?E ?t ?m = Some _ |- _ =>
      rewrite Hr in Heq; discriminate
  | Hf : get_file_succeeds ?E, Heq : env_get_file ?E ?t ?i = inl _ |- _ =>
      destruct (Hf t i) as [? Hf']; rewrite Hf' in Heq; discriminate
  end.

Ltac finish_protocol :=
  norm_trace;
  first [ close_env_cases
        | unfold reply_protocol, ack_text, ack_image, ack_document, document_ok_text;
          cbn [filter is_reply is_create]; do 3 eexists;
          split; [reflexivity | cbn [doc_file_name fmt_opt app]; reflexivity] ].

Definition user0 : User := mkUser (lit "Ada") 42.
Definition photo0 : PhotoSize := mkPhotoSize (lit "AgAD-small") 90 67.
Definition photo1 : PhotoSize := mkPhotoSize (lit "AgAD-large") 1280 960.

(** [bot.get_file] fails, everything else succeeds. *)
Definition env_get_file_fails : env :=
  mkEnv (fun _ _ => None)
        (fun _ _ => inl (OtherException (lit "Timed out")))
        (fun _ _ _ => None)
        (fun _ => clock0).

(** ** Photo sizes *)

Definition resolution (p : PhotoSize) : nat := width p * height p.

Definition no_photo : PhotoSize := mkPhotoSize [] 0 0.

Lemma rev_cons_last {A} (l : list A) (x : A) (xs : list A) (d : A) :
  rev l = x :: xs -> last l d = x.
Proof.
  intros H. apply (f_equal (@rev _)) in H. rewrite rev_involutive in H.
  subst l. simpl. apply last_last.
Qed.

Lemma last_in {A} (l : list A) (d : A) : l <> [] -> In (last l d) l.
Proof.
  intros Hne. rewrite (app_removelast_last d Hne) at 2.
  apply in_or_app. right. left. reflexivity.
Qed.

Lemma sorted_last_max (l : list PhotoSize) :
  Sorted (fun a b => resolution a <= resolution b) l ->
  forall q, In q l -> resolution q <= resolution (last l no_photo).
Proof.
  intros Hs. apply Sorted_StronglySorted in Hs; [|intros a b c; lia].
  induction Hs as [|a l Hs IH Hall]; intros q Hq; [destruct Hq|].
  destruct l as [|b l'].
  - destruct Hq as [<-|[]]. reflexivity.
  - change (last (a :: b :: l') no_photo) with (last (b :: l') no_photo).
    destruct Hq as [<-|Hq].
    + rewrite Forall_forall in Hall. apply Hall, last_in. discriminate.
    + apply IH, Hq.
Qed.

(** ** Titles of file records *)

Lemma slice_to_keeps_prefix (pre suf : str) :
  List.length pre < 100 -> suf <> [] ->
  exists rest, slice_to 100 (pre ++ suf) = pre ++ rest /\ rest <> [].
Proof.
  intros Hlen Hsuf. unfold slice_to. rewrite firstn_app, firstn_all2 by lia.
  exists (firstn (100 - List.length pre) suf). split; [reflexivity|].
  destruct suf as [|c s]; [contradiction|].
  destruct (100 - List.length pre) eqn:Hn; [lia|]. discriminate.
Qed.

(** C9: an empty filename is falsy, so [get_file_properties] treats
    [filename=""] exactly like an omitted filename (the timestamp fallback
    is used); for the kinds Image and Document, the Name title therefore
    never stops right after the separator "{Kind}: ". *)
Theorem empty_filename_as_absent (E : env) (file : TelegramFile) (file_type : str)
    (tr : trace) :
  get_file_properties E file file_type (Some []) tr = get_file_properties E file file_type None tr /\
  (file_type = lit "Image" \/ file_type = lit "Document" ->
   forall filename, exists p tr' rest,
     get_file_properties E file file_type filename tr = (inr p, tr') /\
     jget name_path p = Some (JStr (capitalize file_type ++ lit ": " ++ rest)) /\
     rest <> []).
Proof.
  split; [reflexivity|].
  intros Hk filename.
  destruct (get_file_properties_fields E file file_type filename tr)
    as (p & tr' & title & Hrun & _ & _ & Hname & Htitle & _).
  assert (Hsuf : str_or filename (strftime_ts (env_now E tr)) <> []).
  { destruct filename as [[|c f]|]; cbn -[strftime_ts];
      [apply strftime_ts_nonempty | discriminate | apply strftime_ts_nonempty]. }
  rewrite app_assoc in Htitle.
  destruct (slice_to_keeps_prefix (capitalize file_type ++ lit ": ") _
              ltac:(destruct Hk; subst; vm_compute; lia) Hsuf) as (rest & Hrest & Hne).
  exists p, tr', rest.
  split; [exact Hrun|]. split; [|exact Hne].
  rewrite Hname, Htitle, Hrest, <- app_assoc. reflexivity.
Qed.

(** ** The timestamp pattern YYYY-MM-DD_HH-MM-SS *)

Definition is_digit (c : nat) : bool := (48 <=? c) && (c <=? 57).

(** A pattern position is either any decimal digit ([None]) or a literal. *)
Fixpoint match_pat (pat : list (option nat)) (s : str) : bool :=
  match pat, s with
  | [], [] => true
  | None :: p, c :: s' => is_digit c && match_pat p s'
  | Some x :: p, c :: s' => Nat.eqb x c && match_pat p s'
  | _, _ => false
  end.

Definition ts_pattern : list (option nat) :=
  repeat None 4 ++ Some 45 :: repeat None 2 ++ Some 45 :: repeat None 2 ++ Some 95 ::
  repeat None 2 ++ Some 45 :: repeat None 2 ++ Some 45 :: repeat None 2.

Definition matches_ts (s : str) : bool := match_pat ts_pattern s.

Lemma pad_digits_length (w n : nat) : List.length (pad_digits w n) = w.
Proof.
  revert n; induction w as [|w IH]; intros n; [reflexivity|].
  cbn [pad_digits]. rewrite length_app, IH. simpl. lia.
Qed.

Lemma pad_digits_digits (w n : nat) : forallb is_digit (pad_digits w n) = true.
Proof.
  revert n; induction w as [|w IH]; intros n; [reflexivity|].
  cbn [pad_digits]. rewrite forallb_app, IH. cbn [forallb andb].
  pose proof (Nat.mod_upper_bound n 10 ltac:(lia)).
  assert (Hd : is_digit (48 + n mod 10) = true).
  { unfold is_digit. apply andb_true_intro; split; apply Nat.leb_le; lia. }
  rewrite Hd. reflexivity.
Qed.

Lemma ndigits_fuel_le (fuel n w : nat) : n < 10 ^ w -> 1 <= w -> ndigits_fuel fuel n <= w.
Proof.
  revert n w; induction fuel as [|fuel IH]; intros n w Hn Hw; cbn [ndigits_fuel]; [lia|].
  destruct (n <? 10) eqn:H10; [lia|]. apply Nat.ltb_ge in H10.
  destruct w as [|w]; [lia|].
  destruct w as [|w]; [simpl in Hn; lia|].
  assert (n / 10 < 10 ^ S w).
  { apply Nat.Div0.div_lt_upper_bound. change (10 ^ S (S w)) with (10 * 10 ^ S w) in Hn. lia. }
  specialize (IH (n / 10) (S w) H ltac:(lia)). lia.
Qed.

Lemma zpad_exact (w n : nat) : n < 10 ^ w -> 1 <= w -> zpad w n = pad_digits w n.
Proof.
  intros Hn Hw. unfold zpad, ndigits. rewrite Nat.max_l; [reflexivity|].
  apply ndigits_fuel_le; assumption.
Qed.

Lemma match_digits (s rest : str) (p : list (option nat)) :
  forallb is_digit s = true ->
  match_pat (repeat None (List.length s) ++ p) (s ++ rest) = match_pat p rest.
Proof.
  induction s as [|c s IH]; intros Hd; [reflexivity|].
  simpl in Hd |- *. apply andb_prop in Hd as [Hc Hs]. rewrite Hc, IH by exact Hs.
  reflexivity.
Qed.

Lemma match_pad (w n : nat) (rest : str) (p : list (option nat)) :
  match_pat (repeat None w ++ p) (pad_digits w n ++ rest) = match_pat p rest.
Proof.
  rewrite <- (pad_digits_length w n) at 1. apply match_digits, pad_digits_digits.
Qed.

Lemma match_lit (c : nat) (p : list (option nat)) (s : str) :
  match_pat (Some c :: p) ([c] ++ s) = match_pat p s.
Proof. simpl. rewrite Nat.eqb_refl. reflexivity. Qed.

Lemma strftime_ts_padded (d : datetime) :
  valid_datetime d = true ->
  strftime_ts d =
  pad_digits 4 (year d) ++ [45] ++ pad_digits 2 (month d) ++ [45] ++ pad_digits 2 (day d)
  ++ [95] ++ pad_digits 2 (hour d) ++ [45] ++ pad_digits 2 (minute d) ++ [45]
  ++ pad_digits 2 (second d).
Proof.
  intros Hv. unfold valid_datetime in Hv.
  repeat rewrite andb_true_iff in Hv. rewrite Nat.ltb_lt in Hv.
  repeat rewrite Nat.leb_le in Hv.
  repeat match goal with H : _ /\ _ |- _ => destruct H end.
  unfold strftime_ts.
  assert (P2 : 10 ^ 2 = 100) by reflexivity.
  rewrite !(zpad_exact 2), (zpad_exact 4) by (rewrite ?P2; lia). reflexivity.
Qed.

Lemma strftime_ts_matches (d : datetime) :
  valid_datetime d = true -> matches_ts (strftime_ts d) = true /\ List.length (strftime_ts d) = 19.
Proof.
  intros Hv. rewrite (strftime_ts_padded d Hv). split.
  - unfold matches_ts, ts_pattern.
    repeat (rewrite match_pad || rewrite match_lit).
    rewrite <- (app_nil_r (repeat None 2)), <- (app_nil_r (pad_digits 2 (second d))).
    rewrite match_pad. reflexivity.
  - rewrite !length_app, !pad_digits_length. reflexivity.
Qed.

Example matches_ts_sample : matches_ts (lit "2026-10-18_09-05-07") = true.
Proof. reflexivity. Qed.

Example matches_ts_rejects : matches_ts (lit "2026-10-18 09:05:07") = false.
Proof. reflexivity. Qed.

(** C5: when [get_file_properties] is called without a filename (with the
    kinds Image or Document), the Name title contains
    [now().strftime('%Y-%m-%d_%H-%M-%S')] for the clock read at the call,
    and that text matches the pattern YYYY-MM-DD_HH-MM-SS. *)
Theorem omitted_filename_has_timestamp (E : env) (file : TelegramFile) (file_type : str)
    (tr : trace)
    (Hkind : file_type = lit "Image" \/ file_type = lit "Document")
    (Hclock : valid_datetime (env_now E tr) = true) :
  exists p tr' pre ts post,
    get_file_properties E file file_type None tr = (inr p, tr') /\
    jget name_path p = Some (JStr (pre ++ ts ++ post)) /\
    ts = strftime_ts (env_now E tr) /\
    matches_ts ts = true.
Proof.
  destruct (get_file_properties_fields E file file_type None tr)
    as (p & tr' & title & Hrun & _ & _ & Hname & Htitle & _).
  destruct (strftime_ts_matches _ Hclock) as [Hm Hlen].
  exists p, tr', (capitalize file_type ++ lit ": "), (strftime_ts (env_now E tr)), [].
  split; [exact Hrun|]. split; [|split; [reflexivity | exact Hm]].
  rewrite Hname, Htitle. cbn [str_or]. rewrite app_nil_r, app_assoc.
  unfold slice_to. rewrite firstn_all2; [reflexivity|].
  rewrite length_app, Hlen.
  destruct Hkind; subst file_type; vm_compute; lia.
Qed.

Lemma omitted_filename_has_timestamp_witness :
  (lit "Image" = lit "Image" \/ lit "Image" = lit "Document") /\
  valid_datetime (env_now env_all_ok []) = true /\
  exists p tr' pre ts post,
    get_file_properties env_all_ok (mkTelegramFile (lit "u")) (lit "Image") None [] = (inr p, tr') /\
    jget name_path p = Some (JStr (pre ++ ts ++ post)) /\
    ts = strftime_ts (env_now env_all_ok []) /\
    matches_ts ts = true.
Proof.
  split; [left; reflexivity|]. split; [vm_compute; reflexivity|].
  apply (omitted_filename_has_timestamp env_all_ok (mkTelegramFile (lit "u")) (lit "Image") []);
    [left; reflexivity | vm_compute; reflexivity].
Defined.

(** ** Start-up *)

(** TELEGRAM_BOT_TOKEN is set, but to the empty string. *)
Definition config_empty_token : config :=
  mkConfig (fun v => if String.eqb v "TELEGRAM_BOT_TOKEN" then Some [] else Some (lit "secret"))
           None.

(** C7 (counterexample): all three variables are present, yet the start-up
    check raises, because an empty value is falsy for [all(...)]. *)
Lemma startup_rejects_empty_token :
  (forall v, exists s, getenv config_empty_token v = Some s) /\
  exists e, startup config_empty_token = StartupRaised e.
Proof.
  split.
  - intros v. simpl. destruct (String.eqb v "TELEGRAM_BOT_TOKEN"); eexists; reflexivity.
  - eexists. reflexivity.
Qed.

Definition required_vars : list string :=
  ["TELEGRAM_BOT_TOKEN"; "NOTION_API_KEY"; "NOTION_DATABASE_ID"]%string.

Lemma opt_truthy_spec (o : option str) :
  opt_truthy o = true <-> exists s, o = Some s /\ s <> [].
Proof.
  destruct o as [[|c s]|]; simpl; split.
  - discriminate.
  - intros (s & Hs & Hne). injection Hs as <-. contradiction.
  - intros _. exists (c :: s). split; [reflexivity | discriminate].
  - reflexivity.
  - discriminate.
  - intros (s' & Hs & _). discriminate.
Qed.

(** C7 (amended): the module-level check passes exactly when each of the
    three variables is set to a non-empty value; otherwise importing the
    module raises [ValueError] with the module's message, so [main()] and [run_polling()] are never
    reached; the event loop starts only after the check has passed. *)
Theorem startup_config_check (c : config) :
  (config_check c = inr tt <->
   forall v, In v required_vars -> exists s, getenv c v = Some s /\ s <> []) /\
  (config_check c <> inr tt ->
   startup c = StartupRaised (ValueError (lit "Erreur: Assurez-vous que TELEGRAM_BOT_TOKEN, NOTION_API_KEY, et NOTION_DATABASE_ID sont définis dans le fichier .env"))) /\
  (startup c = Polling -> config_check c = inr tt).
Proof.
  split; [|split].
  - unfold config_check.
    change [getenv c "TELEGRAM_BOT_TOKEN"; getenv c "NOTION_API_KEY";
            getenv c "NOTION_DATABASE_ID"]%string with (map (getenv c) required_vars).
    destruct (forallb opt_truthy (map (getenv c) required_vars)) eqn:Hf.
    + split; [intros _ v Hv | reflexivity].
      rewrite forallb_forall in Hf. apply opt_truthy_spec, Hf, in_map, Hv.
    + split; [discriminate|]. intros H. exfalso.
      rewrite <- not_true_iff_false in Hf. apply Hf, forallb_forall.
      intros o Ho. apply in_map_iff in Ho as (v & <- & Hv). apply opt_truthy_spec, H, Hv.
  - intros H. unfold startup, config_check in *.
    destruct (forallb _ _); [contradiction | reflexivity].
  - unfold startup. destruct (config_check c) as [e|[]]; [discriminate | reflexivity].
Qed.

(** ** Failures, clock reads and the error handler *)

Lemma reply_cons_inv (t1 t2 : str) (r1 r2 : option exn) (l rest : trace) :
  EvReply t1 r1 :: l = EvReply t2 r2 :: rest -> r1 = r2 /\ l = rest.
Proof. intros H. injection H. auto. Qed.

Lemma image_title_prefix (x : str) :
  lit "Image: " ++ x = capitalize (lit "Image") ++ lit ": " ++ x.
Proof. rewrite app_assoc. reflexivity. Qed.

Lemma document_title_prefix (x : str) :
  lit "Document: " ++ x = capitalize (lit "Document") ++ lit ": " ++ x.
Proof. rewrite app_assoc. reflexivity. Qed.

Definition is_now (ev : event) : bool :=
  match ev with EvNow _ => true | _ => false end.

(** Every record creation is refused by the Notion API. *)
Definition env_api_error : env :=
  mkEnv (fun _ _ => None)
        (fun _ _ => inr (mkTelegramFile (lit "https://example/x")))
        (fun _ _ _ => Some (APIResponseError (lit "unauthorized") (lit "API token is invalid.")))
        (fun _ => clock0).



(** Unfold a handler down to the calls it makes. *)
Ltac open_handlers :=
  unfold handle_text, handle_photo, handle_document, getattr, sliceable, last_item,
    get_file_properties, save_to_notion, reply_text, get_file, now, log, emit,
    pages_create, catch, bind, ret, raise.

(** The handler raises an [AttributeError] before any reply, file
    resolution or record creation. *)
Definition raises_attribute_error (run : M unit) (tr : trace) : Prop :=
  (exists name, fst (run tr) = inl (attribute_error name)) /\
  filter is_reply (new_events tr (snd (run tr))) = [] /\
  filter is_get_file (new_events tr (snd (run tr))) = [] /\
  filter is_create (new_events tr (snd (run tr))) = [].

(** A new message from [user0] carrying two sizes of a photo. *)
Definition photo_update : Update :=
  mkUpdate (Some (mkMessage None [photo0; photo1] None)) None None None (Some user0).

(** A new message from [user0] whose photo list is empty. *)
Definition empty_photo_update : Update :=
  mkUpdate (Some (mkMessage None [] None)) None None None (Some user0).


Section Handling.
Local Opaque lit failure_text.

(** [save_to_notion] on an [APIResponseError]: the error is caught, the
    function returns [False], and the log line reads
    "Erreur API Notion: {code} - {body}". *)
Theorem save_to_notion_api_error_logged (E : env) (db : str) (props : json) (tr : trace)
    (code body : str)
    (Herr : env_create E tr db props = Some (APIResponseError code body)) :
  save_to_notion E db props tr =
  (inr false, tr ++ [EvCreate db props (Some (APIResponseError code body));
                     EvLog ERROR (lit "Erreur API Notion: " ++ code ++ lit " - " ++ body)]).
Proof.
  unfold save_to_notion, catch, bind, pages_create, log, emit, ret.
  rewrite Herr, <- app_assoc. reflexivity.
Qed.

Lemma save_to_notion_api_error_logged_witness :
  env_create env_api_error [] (lit "db") (get_text_properties (lit "hi"))
    = Some (APIResponseError (lit "unauthorized") (lit "API token is invalid.")) /\
  save_to_notion env_api_error (lit "db") (get_text_properties (lit "hi")) [] =
  (inr false, [] ++ [EvCreate (lit "db") (get_text_properties (lit "hi"))
                       (Some (APIResponseError (lit "unauthorized") (lit "API token is invalid.")));
                     EvLog ERROR (lit "Erreur API Notion: " ++ lit "unauthorized" ++ lit " - "
                                  ++ lit "API token is invalid.")]).
Proof.
  split; [reflexivity|].
  apply save_to_notion_api_error_logged. reflexivity.
Defined.

(** [error_handler] never raises: it first logs the exception, calls no
    Telegram file or Notion API, replies the apology exactly once when the
    update has a message and not at all otherwise, and logs a failure of
    that reply. *)
Theorem error_handler_never_raises (E : env) (has_message : bool) (error : exn) (tr : trace) :
  fst (error_handler E has_message error tr) = inr tt /\
  (exists rest,
     new_events tr (snd (error_handler E has_message error tr)) =
     EvLog ERROR (lit "Exception lors du traitement d'une mise à jour: " ++ exn_text error) :: rest) /\
  filter is_create (new_events tr (snd (error_handler E has_message error tr))) = [] /\
  filter is_get_file (new_events tr (snd (error_handler E has_message error tr))) = [] /\
  (has_message = false ->
   filter is_reply (new_events tr (snd (error_handler E has_message error tr))) = []) /\
  (has_message = true ->
   exists r, filter is_reply (new_events tr (snd (error_handler E has_message error tr)))
             = [EvReply (lit "Désolé, une erreur interne est survenue.") r]) /\
  (forall e, In (EvReply (lit "Désolé, une erreur interne est survenue.") (Some e))
                (new_events tr (snd (error_handler E has_message error tr))) ->
   In (EvLog ERROR (lit "Impossible d'envoyer un message d'erreur à l'utilisateur: " ++ exn_text e))
      (new_events tr (snd (error_handler E has_message error tr)))).
Proof.
  unfold error_handler, reply_text, log, emit, catch, bind, ret.
  destruct has_message; run_program; norm_trace;
    repeat split;
    first [ eexists; reflexivity | discriminate | reflexivity | intros _; eexists; reflexivity
          | intros e' H; cbn [In] in H |- *;
            repeat (destruct H as [H|H]; [try discriminate|]); try contradiction;
            injection H as <-; repeat (first [left; reflexivity | right]) ].
Qed.

(** An update handled by the application never lets an exception escape:
    what the handler raises goes to [error_handler], which does not raise. *)
Theorem process_update_never_raises (E : env) (has_message : bool) (handler : M unit)
    (tr : trace) :
  fst (process_update E has_message handler tr) = inr tt.
Proof.
  unfold process_update, catch.
  destruct (handler tr) as [[e|[]] tr'] eqn:Hh; [|reflexivity].
  unfold error_handler, reply_text, log, emit, catch, bind, ret.
  destruct has_message; run_program; reflexivity.
Qed.

(** The reply protocol of [handle_text] on every update. *)
Lemma handle_text_protocol (E : env) (db : str) (u : Update) (tr : trace) :
  at_most_one_create (handle_text E db u) tr /\
  (forall m user s, message u = Some m -> effective_user u = Some user -> msg_text m = Some s ->
   replies_succeed E ->
   reply_protocol ack_text (lit "Texte sauvegardé dans Notion !")
     (new_events tr (snd (handle_text E db u tr)))) /\
  (message u = None \/ effective_user u = None -> raises_attribute_error (handle_text E db u) tr).
Proof.
  unfold at_most_one_create, raises_attribute_error. open_handlers. split; [|split].
  - destruct (message u) as [[t ph d]|]; destruct (effective_user u) as [usr|];
      [destruct t as [s|] | | |]; run_program; norm_trace; lia.
  - intros [t ph d] user s Hm Hu Hs Hr. cbn [msg_text] in Hs. subst t. rewrite Hm, Hu.
    run_program; finish_protocol.
  - intros [H|H]; rewrite H; destruct (message u), (effective_user u); run_program; norm_trace;
      (split; [eexists; reflexivity | repeat split]).
Qed.

(** The reply protocol of [handle_photo] on every update. *)
Lemma handle_photo_protocol (E : env) (db : str) (u : Update) (tr : trace) :
  at_most_one_create (handle_photo E db u) tr /\
  (forall m user, message u = Some m -> effective_user u = Some user -> msg_photo m <> [] ->
   replies_succeed E -> get_file_succeeds E ->
   reply_protocol ack_image (lit "Image sauvegardée dans Notion !")
     (new_events tr (snd (handle_photo E db u tr)))) /\
  (message u = None \/ effective_user u = None -> raises_attribute_error (handle_photo E db u) tr) /\
  (forall fid e, In (EvGetFile fid (inl e)) (new_events tr (snd (handle_photo E db u tr))) ->
   fst (handle_photo E db u tr) = inl e /\
   filter is_reply (new_events tr (snd (handle_photo E db u tr))) = [EvReply ack_image None] /\
   filter is_create (new_events tr (snd (handle_photo E db u tr))) = []).
Proof.
  unfold at_most_one_create, raises_attribute_error, ack_image. open_handlers. split; [|split; [|split]].
  - destruct (message u) as [msg|]; destruct (effective_user u) as [usr|];
      [destruct (rev (msg_photo msg)) as [|x xs] | | |]; run_program; norm_trace; lia.
  - intros m user Hm Hu Hne Hr Hf. rewrite Hm, Hu.
    destruct (rev (msg_photo m)) as [|x xs] eqn:Hrev.
    + exfalso. apply Hne.
      apply (f_equal (@rev _)) in Hrev. rewrite rev_involutive in Hrev. exact Hrev.
    + run_program; finish_protocol.
  - intros [H|H]; rewrite H; destruct (message u), (effective_user u); run_program; norm_trace;
      (split; [eexists; reflexivity | repeat split]).
  - destruct (message u) as [msg|]; destruct (effective_user u) as [usr|];
      [destruct (rev (msg_photo msg)) as [|x xs] | | |]; run_program; norm_trace;
      intros fid ?e H; repeat (destruct H as [H|H]; [try discriminate|]); try contradiction;
      injection H as <- <-; repeat split; reflexivity.
Qed.

(** The reply protocol of [handle_document] on every update. *)
Lemma handle_document_protocol (E : env) (db : str) (u : Update) (tr : trace) :
  at_most_one_create (handle_document E db u) tr /\
  (forall m user doc, message u = Some m -> effective_user u = Some user ->
   msg_document m = Some doc -> replies_succeed E -> get_file_succeeds E ->
   reply_protocol ack_document (document_ok_text doc)
     (new_events tr (snd (handle_document E db u tr)))) /\
  (message u = None \/ effective_user u = None ->
   raises_attribute_error (handle_document E db u) tr) /\
  (forall fid e, In (EvGetFile fid (inl e)) (new_events tr (snd (handle_document E db u tr))) ->
   fst (handle_document E db u tr) = inl e /\
   filter is_reply (new_events tr (snd (handle_document E db u tr))) = [EvReply ack_document None] /\
   filter is_create (new_events tr (snd (handle_document E db u tr))) = []).
Proof.
  unfold at_most_one_create, raises_attribute_error. open_handlers. split; [|split; [|split]].
  - destruct (message u) as [[t ph d]|]; destruct (effective_user u) as [usr|];
      [destruct d as [[fid [[|c f]|]]|] | | |]; run_program; norm_trace; lia.
  - intros [t ph d] user doc Hm Hu Hd Hr Hf. cbn [msg_document] in Hd. subst d. rewrite Hm, Hu.
    destruct doc as [fid [[|c f]|]]; run_program; finish_protocol.
  - intros [H|H]; rewrite H; destruct (message u), (effective_user u); run_program; norm_trace;
      (split; [eexists; reflexivity | repeat split]).
  - unfold ack_document.
    destruct (message u) as [[t ph d]|]; destruct (effective_user u) as [usr|];
      [destruct d as [[fid [[|c f]|]]|] | | |]; run_program; norm_trace;
      intros fid' ?e H; repeat (destruct H as [H|H]; [try discriminate|]); try contradiction;
      injection H as <- <-; repeat split; reflexivity.
Qed.

(** C6 (amended): on every update each handler makes at most one
    record-creation call, whatever the outside world answers.  When
    [update.message] and [update.effective_user] are present with the
    content the handler reads (a text; a non-empty photo list; a document),
    and the chat replies do not raise (and, for photos and documents,
    [bot.get_file] does not raise), the handler sends exactly the
    acknowledgment and then one outcome reply: the success text if the
    single record-creation call returned normally, the generic failure text
    if it raised.  When [update.message] or [update.effective_user] is
    absent (an edited message, a channel post), the handler raises an
    [AttributeError] before any reply, file resolution or record creation.
    When [bot.get_file] raises, that exception leaves the handler after the
    acknowledgment, before any record creation or outcome reply. *)
Theorem handlers_reply_protocol (E : env) (db : str) (u : Update) (tr : trace) :
  at_most_one_create (handle_text E db u) tr /\
  at_most_one_create (handle_photo E db u) tr /\
  at_most_one_create (handle_document E db u) tr /\
  (forall m user s, message u = Some m -> effective_user u = Some user -> msg_text m = Some s ->
   replies_succeed E ->
   reply_protocol ack_text (lit "Texte sauvegardé dans Notion !")
     (new_events tr (snd (handle_text E db u tr)))) /\
  (forall m user, message u = Some m -> effective_user u = Some user -> msg_photo m <> [] ->
   replies_succeed E -> get_file_succeeds E ->
   reply_protocol ack_image (lit "Image sauvegardée dans Notion !")
     (new_events tr (snd (handle_photo E db u tr)))) /\
  (forall m user doc, message u = Some m -> effective_user u = Some user ->
   msg_document m = Some doc -> replies_succeed E -> get_file_succeeds E ->
   reply_protocol ack_document (document_ok_text doc)
     (new_events tr (snd (handle_document E db u tr)))) /\
  (message u = None \/ effective_user u = None ->
   raises_attribute_error (handle_text E db u) tr /\
   raises_attribute_error (handle_photo E db u) tr /\
   raises_attribute_error (handle_document E db u) tr) /\
  (forall fid e, In (EvGetFile fid (inl e)) (new_events tr (snd (handle_photo E db u tr))) ->
   fst (handle_photo E db u tr) = inl e /\
   filter is_reply (new_events tr (snd (handle_photo E db u tr))) = [EvReply ack_image None] /\
   filter is_create (new_events tr (snd (handle_photo E db u tr))) = []) /\
  (forall fid e, In (EvGetFile fid (inl e)) (new_events tr (snd (handle_document E db u tr))) ->
   fst (handle_document E db u tr) = inl e /\
   filter is_reply (new_events tr (snd (handle_document E db u tr))) = [EvReply ack_document None] /\
   filter is_create (new_events tr (snd (handle_document E db u tr))) = []).
Proof.
  destruct (handle_text_protocol E db u tr) as (T1 & T2 & T3).
  destruct (handle_photo_protocol E db u tr) as (P1 & P2 & P3 & P4).
  destruct (handle_document_protocol E db u tr) as (D1 & D2 & D3 & D4).
  refine (conj T1 (conj P1 (conj D1 (conj T2 (conj P2 (conj D2 (conj _ (conj P4 D4)))))))).
  intros Hn. exact (conj (T3 Hn) (conj (P3 Hn) (D3 Hn))).
Qed.

(** C6 (counterexample): when [bot.get_file] raises, [handle_photo] sends
    the acknowledgment only; the exception leaves the handler before any
    outcome reply, so the event does not get "exactly one outcome reply". *)
Lemma handle_photo_get_file_raises :
  fst (handle_photo env_get_file_fails (lit "db") photo_update [])
    = inl (OtherException (lit "Timed out")) /\
  filter is_reply (snd (handle_photo env_get_file_fails (lit "db") photo_update []))
    = [EvReply ack_image None] /\
  ~ reply_protocol ack_image (lit "Image sauvegardée dans Notion !")
      (new_events [] (snd (handle_photo env_get_file_fails (lit "db") photo_update []))).
Proof.
  split; [vm_compute; reflexivity|]. split; [vm_compute; reflexivity|].
  intros (db & p & o & H1 & H2). vm_compute in H1. discriminate.
Qed.

(** C10: [get_text_properties] reads no ambient state: [handle_text]
    behaves identically whatever the clock says, on every update, and every
    payload it sends is [get_text_properties s] for the text [s] of
    [update.message], the same on every invocation. *)
Theorem handle_text_deterministic (E : env) (clk : trace -> datetime) (db : str)
    (u : Update) (tr : trace) :
  handle_text E db u tr = handle_text (with_clock E clk) db u tr /\
  (forall db' p o, In (EvCreate db' p o) (new_events tr (snd (handle_text E db u tr))) ->
     exists m s, message u = Some m /\ msg_text m = Some s /\ p = get_text_properties s).
Proof.
  split; [reflexivity|].
  open_handlers.
  destruct (message u) as [[t ph d]|]; destruct (effective_user u) as [usr|];
    [destruct t as [s|] | | |]; run_program; norm_trace; intros db' p o H;
    repeat (destruct H as [H|H];
            [ first [ discriminate
                    | do 2 eexists; split; [reflexivity | split; [reflexivity | congruence]] ] |]);
    contradiction.
Qed.

(** C8: [handle_photo] resolves exactly the file id of
    [update.message.photo[-1]], the last photo-size variant (once the
    acknowledgment went through and the list is non-empty, it makes that
    single [bot.get_file] call); under the precondition that the variants
    are listed by increasing resolution, that variant has the highest
    resolution of the list. *)
Theorem handle_photo_largest (E : env) (db : str) (u : Update) (tr : trace) :
  (forall fid r,
     In (EvGetFile fid r) (new_events tr (snd (handle_photo E db u tr))) ->
     exists m, message u = Some m /\ fid = ps_file_id (last (msg_photo m) no_photo)) /\
  (forall m, message u = Some m -> msg_photo m <> [] ->
   In (EvReply ack_image None) (new_events tr (snd (handle_photo E db u tr))) ->
   exists r, filter is_get_file (new_events tr (snd (handle_photo E db u tr)))
             = [EvGetFile (ps_file_id (last (msg_photo m) no_photo)) r]) /\
  (forall m, message u = Some m -> Sorted (fun a b => resolution a <= resolution b) (msg_photo m) ->
   forall q, In q (msg_photo m) -> resolution q <= resolution (last (msg_photo m) no_photo)).
Proof.
  split; [|split; [|intros m _; apply sorted_last_max]]; open_handlers.
  - destruct (effective_user u) as [usr|]; destruct (message u) as [msg|];
      [destruct (rev (msg_photo msg)) as [|x xs] eqn:Hrev | | |];
      run_program; norm_trace; intros fid r H;
      repeat (destruct H as [H|H]; [try discriminate|]); try contradiction;
      (eexists; split; [reflexivity|]);
      rewrite (rev_cons_last _ x xs no_photo Hrev); congruence.
  - intros m Hm Hne. rewrite Hm. unfold ack_image.
    destruct (effective_user u) as [usr|].
    + destruct (rev (msg_photo m)) as [|x xs] eqn:Hrev.
      * exfalso. apply Hne.
        apply (f_equal (@rev _)) in Hrev. rewrite rev_involutive in Hrev. exact Hrev.
      * rewrite (rev_cons_last _ x xs no_photo Hrev).
        run_program; norm_trace; intros H;
          first [ eexists; reflexivity
                | repeat (destruct H as [H|H]; [try discriminate|]); contradiction ].
    + run_program; norm_trace; intros [].
Qed.

(** When a handler's acknowledgment reply raises, the exception leaves the
    handler at once: no further reply, no [bot.get_file] call and no record
    creation. *)
Theorem handlers_stop_when_ack_fails (E : env) (db : str) (u : Update) (tr : trace) :
  (forall e rest,
     filter is_reply (new_events tr (snd (handle_text E db u tr)))
       = EvReply ack_text (Some e) :: rest ->
     fst (handle_text E db u tr) = inl e /\ rest = [] /\
     filter is_create (new_events tr (snd (handle_text E db u tr))) = []) /\
  (forall e rest,
     filter is_reply (new_events tr (snd (handle_photo E db u tr)))
       = EvReply ack_image (Some e) :: rest ->
     fst (handle_photo E db u tr) = inl e /\ rest = [] /\
     filter is_get_file (new_events tr (snd (handle_photo E db u tr))) = [] /\
     filter is_create (new_events tr (snd (handle_photo E db u tr))) = []) /\
  (forall e rest,
     filter is_reply (new_events tr (snd (handle_document E db u tr)))
       = EvReply ack_document (Some e) :: rest ->
     fst (handle_document E db u tr) = inl e /\ rest = [] /\
     filter is_get_file (new_events tr (snd (handle_document E db u tr))) = [] /\
     filter is_create (new_events tr (snd (handle_document E db u tr))) = []).
Proof.
  unfold ack_text, ack_image, ack_document. open_handlers.
  split; [|split]; intros err rest.
  - destruct (message u) as [[t ph d]|]; destruct (effective_user u) as [usr|];
      [destruct t as [s|] | | |];
      run_program; norm_trace; intros H;
      first [ discriminate H
            | apply reply_cons_inv in H as [Hr0 Hl0]; subst;
              first [ discriminate | injection Hr0 as ->; repeat split; reflexivity ] ].
  - destruct (effective_user u) as [usr|]; destruct (message u) as [msg|];
      [destruct (rev (msg_photo msg)) as [|x xs] | | |];
      run_program; norm_trace; intros H;
      first [ discriminate H
            | apply reply_cons_inv in H as [Hr0 Hl0]; subst;
              first [ discriminate | injection Hr0 as ->; repeat split; reflexivity ] ].
  - destruct (message u) as [[t ph d]|]; destruct (effective_user u) as [usr|];
      [destruct d as [[fid [[|c f]|]]|] | | |];
      run_program; norm_trace; intros H;
      first [ discriminate H
            | apply reply_cons_inv in H as [Hr0 Hl0]; subst;
              first [ discriminate | injection Hr0 as ->; repeat split; reflexivity ] ].
Qed.

(** Every record creation of a handler goes to the configured database; for
    photos and documents the Fichier URL is the [file_path] of a file that
    [bot.get_file] returned during the same update (for documents, for the
    file id of [update.message.document]). *)
Theorem handlers_create_target (E : env) (db : str) (u : Update) (tr : trace) :
  (forall db' p o,
     In (EvCreate db' p o) (new_events tr (snd (handle_text E db u tr))) -> db' = db) /\
  (forall db' p o,
     In (EvCreate db' p o) (new_events tr (snd (handle_photo E db u tr))) ->
     db' = db /\
     exists fid f, In (EvGetFile fid (inr f)) (new_events tr (snd (handle_photo E db u tr))) /\
                   jget url_path p = Some (JStr (file_path f))) /\
  (forall db' p o,
     In (EvCreate db' p o) (new_events tr (snd (handle_document E db u tr))) ->
     db' = db /\
     exists m doc f, message u = Some m /\ msg_document m = Some doc /\
                     In (EvGetFile (doc_file_id doc) (inr f))
                        (new_events tr (snd (handle_document E db u tr))) /\
                     jget url_path p = Some (JStr (file_path f))).
Proof.
  open_handlers. split; [|split].
  - destruct (message u) as [[t ph d]|]; destruct (effective_user u) as [usr|];
      [destruct t as [s|] | | |];
      run_program; norm_trace; intros db' p o H;
      repeat (destruct H as [H|H]; [try discriminate|]); try contradiction;
      injection H as <- <- <-; reflexivity.
  - destruct (effective_user u) as [usr|]; destruct (message u) as [msg|];
      [destruct (rev (msg_photo msg)) as [|x xs] | | |];
      run_program; norm_trace; intros db' p o H;
      repeat (destruct H as [H|H]; [try discriminate|]); try contradiction;
      injection H as <- <- <-;
      (split; [reflexivity|]); repeat eexists;
      cbn [In]; repeat (first [left; reflexivity | right]).
  - destruct (message u) as [[t ph d]|]; destruct (effective_user u) as [usr|];
      [destruct d as [[fid [[|c f]|]]|] | | |];
      run_program; norm_trace; intros db' p o H;
      repeat (destruct H as [H|H]; [try discriminate|]); try contradiction;
      injection H as <- <- <-;
      (split; [reflexivity|]); repeat eexists;
      cbn [In]; repeat (first [left; reflexivity | right]).
Qed.

(** The title of a created record: for a photo, and for a document whose
    file name is absent or empty, "Kind: " followed by the timestamp of a
    clock read made during the update; for a document with a non-empty file
    name, "Document: " followed by that name, without reading the clock.
    Titles are cut to 100 characters. *)
Theorem handlers_file_titles (E : env) (db : str) (u : Update) (tr : trace) :
  (forall db' p o,
     In (EvCreate db' p o) (new_events tr (snd (handle_photo E db u tr))) ->
     exists d, In (EvNow d) (new_events tr (snd (handle_photo E db u tr))) /\
               jget name_path p = Some (JStr (slice_to 100 (lit "Image: " ++ strftime_ts d)))) /\
  (forall m doc, message u = Some m -> msg_document m = Some doc ->
   opt_truthy (doc_file_name doc) = false ->
   forall db' p o,
     In (EvCreate db' p o) (new_events tr (snd (handle_document E db u tr))) ->
     exists d, In (EvNow d) (new_events tr (snd (handle_document E db u tr))) /\
               jget name_path p = Some (JStr (slice_to 100 (lit "Document: " ++ strftime_ts d)))) /\
  (forall m doc n, message u = Some m -> msg_document m = Some doc ->
   doc_file_name doc = Some n -> n <> [] ->
   filter is_now (new_events tr (snd (handle_document E db u tr))) = [] /\
   forall db' p o,
     In (EvCreate db' p o) (new_events tr (snd (handle_document E db u tr))) ->
     jget name_path p = Some (JStr (slice_to 100 (lit "Document: " ++ n)))).
Proof.
  open_handlers.
  split; [|split].
  - destruct (effective_user u) as [usr|]; destruct (message u) as [msg|];
      [destruct (rev (msg_photo msg)) as [|x xs] | | |];
      run_program; norm_trace; intros db' p o H;
      repeat (destruct H as [H|H]; [try discriminate|]); try contradiction;
      injection H as <- <- <-;
      (eexists; split;
       [ cbn [In]; repeat (first [left; reflexivity | right])
       | rewrite image_title_prefix; reflexivity ]).
  - intros [t ph d] doc Hm Hd Hn. cbn [msg_document] in Hd. subst d. rewrite Hm.
    destruct doc as [fid [[|c f]|]]; [| discriminate Hn |];
    destruct (effective_user u) as [usr|];
    run_program; norm_trace; intros db' p o H;
    repeat (destruct H as [H|H]; [try discriminate|]); try contradiction;
    injection H as <- <- <-;
    (eexists; split;
     [ cbn [In]; repeat (first [left; reflexivity | right])
     | rewrite document_title_prefix; reflexivity ]).
  - intros [t ph d] [fid name] n Hm Hd Hn Hne. cbn [msg_document] in Hd. subst d.
    cbn [doc_file_name] in Hn. subst name. rewrite Hm.
    destruct n as [|c f]; [contradiction|].
    destruct (effective_user u) as [usr|];
    run_program; norm_trace; cbn [filter is_now]; (split; [reflexivity|]); intros db' p o H;
    repeat (destruct H as [H|H]; [try discriminate|]); try contradiction;
    injection H as <- <- <-;
    rewrite document_title_prefix; reflexivity.
Qed.

(** A message with an empty photo list: [photo[-1]] raises before
    [bot.get_file] and before any record creation; the only reply is the
    acknowledgment; the handler always raises, with [IndexError] once the
    acknowledgment went through. *)
Theorem handle_photo_empty (E : env) (db : str) (u : Update) (m : Message) (user : User)
    (tr : trace) (Hm : message u = Some m) (Hu : effective_user u = Some user)
    (Hp : msg_photo m = []) :
  filter is_get_file (new_events tr (snd (handle_photo E db u tr))) = [] /\
  filter is_create (new_events tr (snd (handle_photo E db u tr))) = [] /\
  (exists r, filter is_reply (new_events tr (snd (handle_photo E db u tr)))
             = [EvReply ack_image r]) /\
  (exists e, fst (handle_photo E db u tr) = inl e) /\
  (replies_succeed E -> fst (handle_photo E db u tr) = inl IndexError).
Proof.
  unfold handle_photo, getattr, last_item, reply_text, log, emit, bind, ret, raise, ack_image.
  rewrite Hm, Hu, Hp. cbn [rev].
  run_program; norm_trace;
    (split; [reflexivity|]); (split; [reflexivity|]); (split; [eexists; reflexivity|]);
    (split; [eexists; reflexivity|]); intros Hr; first [ reflexivity | close_env_cases ].
Qed.

Lemma handle_photo_empty_witness :
  message empty_photo_update = Some (mkMessage None [] None) /\
  effective_user empty_photo_update = Some user0 /\
  msg_photo (mkMessage None [] None) = [] /\
  filter is_get_file (new_events [] (snd (handle_photo env_all_ok (lit "db") empty_photo_update []))) = [] /\
  filter is_create (new_events [] (snd (handle_photo env_all_ok (lit "db") empty_photo_update []))) = [] /\
  (exists r, filter is_reply (new_events [] (snd (handle_photo env_all_ok (lit "db") empty_photo_update [])))
             = [EvReply ack_image r]) /\
  (exists e, fst (handle_photo env_all_ok (lit "db") empty_photo_update []) = inl e) /\
  (replies_succeed env_all_ok ->
   fst (handle_photo env_all_ok (lit "db") empty_photo_update []) = inl IndexError).
Proof.
  split; [reflexivity|]. split; [reflexivity|]. split; [reflexivity|].
  apply (handle_photo_empty env_all_ok (lit "db") empty_photo_update (mkMessage None [] None)
           user0 []); reflexivity.
Defined.



End Handling.
